(** * examples/mnist_full_logs.py: the MNIST example of ciclo

    A shallow embedding of the example script: the [Linear] model, the
    [Metrics] collection, the [TrainState] record, the four step functions
    ([train_step], [compute_metrics], [eval_step], [reset_metrics]) and the
    [ciclo.loop] call that schedules them.

    The script is glue over jax, flax, optax, clu and ciclo.  Calls into
    these libraries are taken as operations of an interface ([Numeric],
    [Backend], [Flax]); every one of them may raise, so the step functions
    live in the exception monad [result].  [Strict] has the same functions
    with the remaining operations allowed to raise as well.  The loop
    driver of ciclo, which the script only calls, is modelled from the
    words of the spec. *)

From Stdlib Require Import ZArith String List.
From stdpp Require Import base option list gmap strings pretty.

#[local] Set Warnings "-register-all".

Local Open Scope string_scope.
Local Open Scope list_scope.
Local Open Scope Z_scope.

(** ** Python results: a value or a raised exception *)

Inductive exn : Type :=
| KeyError (key : string)
| IndexError
| TypeError
| LibraryError (name : string).

Inductive result (A : Type) : Type :=
| Ok (a : A)
| Raise (e : exn).

Arguments Ok {A} a.
Arguments Raise {A} e.

#[global] Instance result_ret : MRet result := fun A a => Ok a.

#[global] Instance result_bind : MBind result := fun A B f r =>
  match r with
  | Ok a => f a
  | Raise e => Raise e
  end.

(** [d[key]] on a Python dict. *)
Definition subscript {V : Type} (d : gmap string V) (key : string) : result V :=
  match d !! key with
  | Some v => Ok v
  | None => Raise (KeyError key)
  end.

(** A parameter or collection looked up in a flax scope. *)
Definition scope_get {V : Type} (d : gmap string V) (key : string) : result V :=
  match d !! key with
  | Some v => Ok v
  | None => Raise (LibraryError "ScopeParamNotFoundError")
  end.

(** ** Arrays: a shape and the elements in row-major order *)

Class Numeric : Type := {
  F : Type;
  f0 : F;
  f255 : F;
  f1e_3 : F;
  fadd : F -> F -> F;
  fmul : F -> F -> F;
  fdiv : F -> F -> F
}.

Section Arrays.
Context `{Numeric}.

Record Array : Type := mkArray { shape : list nat; data : list F }.

Definition numel (sh : list nat) : nat := fold_right Nat.mul 1%nat sh.

Definition wf_array (x : Array) : Prop := length (data x) = numel (shape x).

(** [x / c], elementwise. *)
Definition true_divide (x : Array) (c : F) : Array :=
  mkArray (shape x) (map (fun v => fdiv v c) (data x)).

(** [x.shape[0]] *)
Definition shape0 (x : Array) : result nat :=
  match shape x with
  | n :: _ => Ok n
  | [] => Raise IndexError
  end.

(** [x.reshape((n, -1))]: the second dimension is inferred from the size. *)
Definition reshape_rows (x : Array) (n : nat) : result Array :=
  let size := length (data x) in
  if (n =? 0)%nat then Raise TypeError
  else if (size mod n =? 0)%nat then Ok (mkArray [n; (size / n)%nat] (data x))
  else Raise TypeError.

(** *** The Dense layer: [y = x @ kernel + bias] on the last axis *)

Fixpoint chunks (fuel n : nat) (l : list F) : list (list F) :=
  match fuel with
  | O => []
  | S fuel' => take n l :: chunks fuel' n (drop n l)
  end.

Definition dot (r c : list F) : F :=
  fold_left fadd (zip_with fmul r c) f0.

Definition column (features j : nat) (kernel : list F) : list F :=
  map (fun row => nth j row f0) (chunks (length kernel / features) features kernel).

Definition dense_row (features : nat) (kernel bias r : list F) : list F :=
  map (fun j => fadd (dot r (column features j kernel)) (nth j bias f0))
      (seq 0 features).

Definition Dense (features : nat) (scope : gmap string Array) (x : Array)
  : result Array :=
  kernel ← scope_get scope "kernel";
  bias ← scope_get scope "bias";
  let n := List.last (shape x) 1%nat in
  if decide (shape kernel = [n; features] ∧ shape bias = [features]) then
    let rows := chunks (numel (removelast (shape x))) n (data x) in
    Ok (mkArray (removelast (shape x) ++ [features])
                (concat (map (dense_row features (data kernel) (data bias)) rows)))
  else Raise (LibraryError "ScopeParamShapeError").

(** *** class Linear(nn.Module) *)

(** [Linear.__call__], with the module's parameter scope made explicit:
    the compact module owns one submodule, named Dense_0 by flax. *)
Definition Linear_call (params : gmap string (gmap string Array)) (x : Array)
  : result Array :=
  let x := true_divide x f255 in
  n ← shape0 x;
  x ← reshape_rows x n;
  scope ← scope_get params "Dense_0";
  x ← Dense 10 scope x;
  Ok x.

(** [model.apply(variables, x)] *)
Definition Linear_apply (variables : gmap string (gmap string (gmap string Array)))
           (x : Array) : result Array :=
  params ← scope_get variables "params";
  Linear_call params x.
End Arrays.

Abbreviation Params := (gmap string (gmap string Array)).
Abbreviation Variables := (gmap string Params).
Abbreviation kwargs := (gmap string Array).

(** ** The library operations the script calls *)

(** A clu metric class: the four operations [Collection] relies on. *)
Class Metric `{Numeric} (M : Type) : Type := {
  metric_from_model_output : kwargs -> result M;
  metric_merge : M -> M -> result M;
  metric_compute : M -> result Array;
  metric_empty : result M
}.

Class Backend `{Numeric} : Type := {
  (* jax *)
  Key : Type;
  PRNGKey : Z -> result Key;
  jnp_empty : list nat -> result Array;
  grad : (Params -> result (Array * Array)) -> Params -> result Params;
  (* flax.linen *)
  module_init : (Variables -> Array -> result Array) -> Key -> Array -> result Variables;
  (* optax *)
  Tx : Type;
  OptState : Type;
  adamw : F -> result Tx;
  softmax_cross_entropy_with_integer_labels : Array -> Array -> result Array;
  mean : Array -> result Array;
  (* clu.metrics *)
  Average : Type;
  Accuracy : Type;
  Average_from_output : string -> Metric Average;
  Accuracy_metric : Metric Accuracy;
  (* ciclo *)
  Logs : Type;
  ciclo_logs : Logs;
  add_metrics : Logs -> kwargs -> bool -> result Logs
}.

Section Script.
Context `{Backend}.

(** [jax.value_and_grad(f, has_aux=True)(p)]: the value of [f] at [p]
    together with the gradient of its first component. *)
Definition value_and_grad (f : Params -> result (Array * Array)) (p : Params)
  : result ((Array * Array) * Params) :=
  v ← f p;
  g ← grad f p;
  Ok (v, g).

(** *** class Metrics(Collection) *)

Record Metrics : Type := mkMetrics { loss : Average; accuracy : Accuracy }.

(** The metric class declared for each field. *)
Definition loss_metric : Metric Average := Average_from_output "loss".
Definition accuracy_metric : Metric Accuracy := Accuracy_metric.

(** [Collection] works field by field, in declaration order. *)
Definition Metrics_single_from_model_output (kw : kwargs) : result Metrics :=
  l ← @metric_from_model_output _ _ loss_metric kw;
  a ← @metric_from_model_output _ _ accuracy_metric kw;
  Ok (mkMetrics l a).

Definition Metrics_merge (self other : Metrics) : result Metrics :=
  l ← @metric_merge _ _ loss_metric (loss self) (loss other);
  a ← @metric_merge _ _ accuracy_metric (accuracy self) (accuracy other);
  Ok (mkMetrics l a).

Definition Metrics_compute (self : Metrics) : result kwargs :=
  l ← @metric_compute _ _ loss_metric (loss self);
  a ← @metric_compute _ _ accuracy_metric (accuracy self);
  Ok (<["accuracy" := a]> {["loss" := l]}).

Definition Metrics_empty : result Metrics :=
  l ← @metric_empty _ _ loss_metric;
  a ← @metric_empty _ _ accuracy_metric;
  Ok (mkMetrics l a).

Definition Metrics_update (self : Metrics) (kw : kwargs) : result Metrics :=
  updates ← Metrics_single_from_model_output kw;
  Metrics_merge self updates.

(** *** class TrainState(train_state.TrainState) *)

Record TrainState : Type := mkTrainState {
  step : Z;
  apply_fn : Variables -> Array -> result Array;
  params : Params;
  tx : Tx;
  opt_state : OptState;
  metrics : Metrics
}.

(** [state.replace(metrics=m)] *)
Definition replace_metrics (state : TrainState) (m : Metrics) : TrainState :=
  mkTrainState (step state) (apply_fn state) (params state) (tx state)
               (opt_state state) m.

(** The two methods of flax's [train_state.TrainState] the script calls. *)
Class Flax : Type := {
  TrainState_create :
    (Variables -> Array -> result Array) -> Params -> Tx -> Metrics -> result TrainState;
  apply_gradients : TrainState -> Params -> result TrainState
}.

Context `{Flax}.

(** A batch of the dataset, with the image and the label it holds under
    its two keys.  The subscripts themselves, which raise on a dict
    without the key, are in [Strict] below. *)
Record Batch : Type := mkBatch { image : Array; label : Array }.

(** *** The step functions

    [jax.jit] compiles a function without changing what it returns: the
    decorated functions are embedded as written. *)

Definition loss_fn (state : TrainState) (batch : Batch) (params : Params)
  : result (Array * Array) :=
  logits ← apply_fn state {["params" := params]} (image batch);
  losses ← softmax_cross_entropy_with_integer_labels logits (label batch);
  loss ← mean losses;
  Ok (loss, logits).

Definition train_step (state : TrainState) (batch : Batch) : result TrainState :=
  '(loss, logits, grads) ← value_and_grad (loss_fn state batch) (params state);
  state ← apply_gradients state grads;
  metrics ← Metrics_update (metrics state)
    (<["labels" := label batch]> (<["logits" := logits]> {["loss" := loss]}));
  Ok (replace_metrics state metrics).

Definition compute_metrics (state : TrainState) : result (gmap string kwargs) :=
  logs ← Metrics_compute (metrics state);
  Ok {["stateful_metrics" := logs]}.

Definition eval_step (state : TrainState) (batch : Batch)
  : result (Logs * TrainState) :=
  logits ← apply_fn state {["params" := params state]} (image batch);
  losses ← softmax_cross_entropy_with_integer_labels logits (label batch);
  loss ← mean losses;
  metrics ← Metrics_update (metrics state)
    (<["labels" := label batch]> (<["logits" := logits]> {["loss" := loss]}));
  let logs := ciclo_logs in
  computed ← Metrics_compute metrics;
  logs ← add_metrics logs computed true;
  Ok (logs, replace_metrics state metrics).

Definition reset_metrics {B C : Type} (state : TrainState) (batch : B) (_ : C)
  : result TrainState :=
  m ← Metrics_empty;
  Ok (replace_metrics state m).

(** The keyword arguments both steps pass to [Metrics.update]. *)
Definition update_kwargs (loss logits : Array) (batch : Batch) : kwargs :=
  <["labels" := label batch]> (<["logits" := logits]> {["loss" := loss]}).

(** *** Initialize state *)

Definition variables : result Variables :=
  key ← PRNGKey 0;
  x ← jnp_empty [1; 28; 28; 1]%nat;
  module_init Linear_apply key x.

Definition state : result TrainState :=
  variables ← variables;
  params ← subscript variables "params";
  tx ← adamw f1e_3;
  m ← Metrics_empty;
  TrainState_create Linear_apply params tx m.

(** [eval_step] on one batch after the other, each call on the state the
    call before returned; the logs are kept in order. *)
Fixpoint eval_each (state : TrainState) (batches : list Batch)
  : result (list Logs * TrainState) :=
  match batches with
  | [] => Ok ([], state)
  | batch :: rest =>
      '(logs, state) ← eval_step state batch;
      '(more, state) ← eval_each state rest;
      Ok (logs :: more, state)
  end.

(** *** The same steps on objects

    A [TrainState] is a frozen dataclass instance: the script holds a
    reference to it, and [replace] and [apply_gradients] build a new
    instance.  The store lists the instances made so far; a reference is
    an index into it. *)

Definition new (s : TrainState) (h : list TrainState)
  : nat * list TrainState :=
  (length h, h ++ [s]).

Definition deref (h : list TrainState) (r : nat) : result TrainState :=
  match h !! r with
  | Some s => Ok s
  | None => Raise (LibraryError "ReferenceError")
  end.

Definition obj_replace_metrics (r : nat) (m : Metrics) (h : list TrainState)
  : result (nat * list TrainState) :=
  s ← deref h r;
  Ok (new (replace_metrics s m) h).

Definition obj_apply_gradients (r : nat) (grads : Params) (h : list TrainState)
  : result (nat * list TrainState) :=
  s ← deref h r;
  s' ← apply_gradients s grads;
  Ok (new s' h).

Definition obj_train_step (state : nat) (batch : Batch) (h : list TrainState)
  : result (nat * list TrainState) :=
  s ← deref h state;
  '(loss, logits, grads) ← value_and_grad (loss_fn s batch) (params s);
  '(state, h) ← obj_apply_gradients state grads h;
  s ← deref h state;
  metrics ← Metrics_update (metrics s)
    (<["labels" := label batch]> (<["logits" := logits]> {["loss" := loss]}));
  obj_replace_metrics state metrics h.

Definition obj_eval_step (state : nat) (batch : Batch) (h : list TrainState)
  : result (Logs * nat * list TrainState) :=
  s ← deref h state;
  logits ← apply_fn s {["params" := params s]} (image batch);
  losses ← softmax_cross_entropy_with_integer_labels logits (label batch);
  loss ← mean losses;
  metrics ← Metrics_update (metrics s)
    (<["labels" := label batch]> (<["logits" := logits]> {["loss" := loss]}));
  let logs := ciclo_logs in
  computed ← Metrics_compute metrics;
  logs ← add_metrics logs computed true;
  '(state, h) ← obj_replace_metrics state metrics h;
  Ok (logs, state, h).

Definition obj_reset_metrics {B C : Type} (state : nat) (batch : B) (_ : C)
           (h : list TrainState) : result (nat * list TrainState) :=
  s ← deref h state;
  m ← Metrics_empty;
  obj_replace_metrics state m h.
End Script.

(** ** The step functions with every operation that can raise

    Above, a batch is a record and [jax.jit], [state.replace] and
    [ciclo.logs()] always return.  Here a batch is the dict the dataset
    yields, subscripted where the source subscripts it, and the three
    library operations may raise like any other; when they return, they
    return what they return above. *)

Class Faults {NUM : Numeric} {BE : Backend} {FL : Flax} : Type := {
  (* jax.jit: before the function runs, and compiling and running it after *)
  jit_dispatch : forall A : Type, A -> result unit;
  jit_execute : forall A : Type, A -> result unit;
  (* flax.struct: dataclasses.replace *)
  dataclass_replace : TrainState -> Metrics -> result unit;
  (* ciclo.logs() *)
  logs_new : result unit
}.

(** [r] raises [e], or it returns and [rest] holds of what it returned. *)
Definition raises_or {A : Type} (r : result A) (e : exn) (rest : A -> Prop) : Prop :=
  r = Raise e \/ exists a, r = Ok a /\ rest a.

Module Strict.
Section Steps.
Context {NUM : Numeric} {BE : Backend} {FL : Flax} {FA : Faults}.

(** A function decorated with [jax.jit], called on [x]. *)
Definition jit {A B : Type} (f : A -> result B) (x : A) : result B :=
  _ ← jit_dispatch A x;
  y ← f x;
  _ ← jit_execute A x;
  Ok y.

(** [state.replace(metrics=m)] *)
Definition state_replace (state : TrainState) (m : Metrics) : result TrainState :=
  _ ← dataclass_replace state m;
  Ok (replace_metrics state m).

Definition loss_fn (state : TrainState) (batch : kwargs) (params : Params)
  : result (Array * Array) :=
  image ← subscript batch "image";
  logits ← apply_fn state {["params" := params]} image;
  label ← subscript batch "label";
  losses ← softmax_cross_entropy_with_integer_labels logits label;
  loss ← mean losses;
  Ok (loss, logits).

Definition train_step (state : TrainState) (batch : kwargs) : result TrainState :=
  jit (fun '(state, batch) =>
         '(loss, logits, grads) ← value_and_grad (loss_fn state batch) (params state);
         state ← apply_gradients state grads;
         label ← subscript batch "label";
         metrics ← Metrics_update (metrics state)
           (<["labels" := label]> (<["logits" := logits]> {["loss" := loss]}));
         state_replace state metrics)
      (state, batch).

Definition compute_metrics (state : TrainState) : result (gmap string kwargs) :=
  jit (fun state =>
         logs ← Metrics_compute (metrics state);
         Ok {["stateful_metrics" := logs]})
      state.

Definition eval_step (state : TrainState) (batch : kwargs)
  : result (Logs * TrainState) :=
  jit (fun '(state, batch) =>
         image ← subscript batch "image";
         logits ← apply_fn state {["params" := params state]} image;
         label ← subscript batch "label";
         losses ← softmax_cross_entropy_with_integer_labels logits label;
         loss ← mean losses;
         label ← subscript batch "label";
         metrics ← Metrics_update (metrics state)
           (<["labels" := label]> (<["logits" := logits]> {["loss" := loss]}));
         _ ← logs_new;
         let logs := ciclo_logs in
         computed ← Metrics_compute metrics;
         logs ← add_metrics logs computed true;
         state ← state_replace state metrics;
         Ok (logs, state))
      (state, batch).

Definition reset_metrics {B C : Type} (state : TrainState) (batch : B) (_ : C)
  : result TrainState :=
  m ← Metrics_empty;
  state_replace state m.
End Steps.
End Strict.

(** The dict of a batch that has both keys. *)
Definition batch_dict {NUM : Numeric} {BE : Backend} (batch : Batch) : kwargs :=
  <["label" := label batch]> {["image" := image batch]}.

(** ** The training loop call *)

Definition batch_size : Z := 32.
Definition total_samples : Z := 32 * 100.
Definition total_steps : Z := total_samples / batch_size.
Definition eval_steps : Z := total_steps / 10.
Definition log_steps : Z := total_steps / 50.

(** The arguments of [ciclo.loop] as written in the script.  The callback
    table is an association list in the order of the dict literal; a bare
    callable as a value stands for the one-element list. *)

Inductive schedule : Type := every (steps : Z).

Inductive step_fn : Type :=
| fn_train_step
| fn_compute_metrics
| fn_eval_step
| fn_reset_metrics.

#[global] Instance schedule_eq_dec : EqDecision schedule.
Proof. solve_decision. Defined.

#[global] Instance step_fn_eq_dec : EqDecision step_fn.
Proof. solve_decision. Defined.

Inductive dataset : Type := ds_train | ds_valid.

Inductive task (cb : Type) : Type :=
| on (s : schedule) (cbs : list cb)
| keras_bar (total : Z).

Arguments on {cb} s cbs.
Arguments keras_bar {cb} total.

Inductive callback : Type :=
| call (f : step_fn)
| inner_loop (name : string) (ds : dataset) (tasks : list (task callback))
             (on_start : list callback) (stop : option Z)
| checkpoint (path monitor mode : string)
| early_stopping (monitor mode : string) (patience : Z).

Record loop_call : Type := mkLoop {
  loop_dataset : dataset;
  loop_tasks : list (task callback);
  loop_on_start : list callback;
  loop_stop : option Z
}.

(** [lambda state: ciclo.loop(state, ds_valid..., {every(1): eval_step},
    on_start=[reset_metrics])] *)
Definition validation_loop : callback :=
  inner_loop "valid" ds_valid
             [on (every 1) [call fn_eval_step]]
             [call fn_reset_metrics]
             None.

(** [now] is the value of [int(time())] when the table is built. *)
Definition checkpoint_path (now : Z) : string :=
  "logdir/mnist_full/" +:+ pretty now.

Definition training_loop (now : Z) : loop_call :=
  mkLoop ds_train
         [ on (every 1) [call fn_train_step];
           on (every log_steps) [call fn_compute_metrics; call fn_reset_metrics];
           on (every eval_steps)
              [ validation_loop;
                checkpoint (checkpoint_path now) "accuracy_valid" "max";
                early_stopping "accuracy_valid" "max" (eval_steps * 2) ];
           keras_bar total_steps ]
         []
         (Some total_steps).

(** *** Where each step function is scheduled *)

(** The way from the outer loop to a callback: the schedule of its table
    entry, the [on_start] list, or the inner loop it sits in. *)
Inductive trigger : Type :=
| at_schedule (s : schedule)
| at_start
| within (name : string).

#[global] Instance trigger_eq_dec : EqDecision trigger.
Proof. solve_decision. Defined.

Fixpoint callback_sites (path : list trigger) (cb : callback)
  : list (list trigger * step_fn) :=
  match cb with
  | call f => [(path, f)]
  | inner_loop name _ tasks on_start _ =>
      let path := path ++ [within name] in
      flat_map (callback_sites (path ++ [at_start])) on_start ++
      flat_map (fun t =>
                  match t with
                  | on s cbs => flat_map (callback_sites (path ++ [at_schedule s])) cbs
                  | keras_bar _ => []
                  end) tasks
  | checkpoint _ _ _ => []
  | early_stopping _ _ _ => []
  end.

Definition task_sites (path : list trigger) (t : task callback)
  : list (list trigger * step_fn) :=
  match t with
  | on s cbs => flat_map (callback_sites (path ++ [at_schedule s])) cbs
  | keras_bar _ => []
  end.

Definition loop_sites (l : loop_call) : list (list trigger * step_fn) :=
  flat_map (callback_sites [at_start]) (loop_on_start l) ++
  flat_map (task_sites []) (loop_tasks l).

Definition sites_of (f : step_fn) (l : loop_call) : list (list trigger) :=
  map fst (filter (fun site => site.2 = f) (loop_sites l)).

(** ** The loop driver

    [ciclo.loop], [ciclo.every] and the callbacks are ciclo's own code and
    not part of the example.  The model below follows the words of the
    spec, "a generic step-scheduling loop" with a "periodic callback
    table", "inner loops", "checkpointing", "early stopping" and "progress
    display".  It records which callbacks run at which step and in which
    order; it does not run them. *)

(** Modelled from the spec: what the loop driver (missing: [ciclo.loop])
    is given besides the call, namely the number it gives its first step
    and the number of batches [ds_valid] yields. *)
Record world : Type := mkWorld { first_step : Z; valid_batches : nat }.

(** [ds_train] is repeated without end (line 21); [ds_valid] is not. *)
Definition dataset_size (w : world) (ds : dataset) : option nat :=
  match ds with
  | ds_train => None
  | ds_valid => Some (valid_batches w)
  end.

(** Modelled from the spec: the periodic schedule (missing: [ciclo.every]);
    the entry under [every n] is due once every [n] steps, at the steps
    whose number is a multiple of [n]. *)
Definition due (s : schedule) (k : Z) : bool :=
  match s with
  | every n => k mod n =? 0
  end.

(** Modelled from the spec: how many steps a loop makes (missing:
    [ciclo.loop]); one per batch, up to [stop]; a loop over an endless
    dataset without [stop] does not return. *)
Definition loop_steps (size : option nat) (stop : option Z) : option nat :=
  match size, stop with
  | Some n, Some limit => Some (Nat.min n (Z.to_nat limit))
  | Some n, None => Some n
  | None, Some limit => Some (Z.to_nat limit)
  | None, None => None
  end.

(** What has run: a step function, an inner loop with what ran at its
    start and at each of its steps, a checkpoint, an early-stopping check
    or an update of the progress bar. *)
Inductive ran : Type :=
| ran_fn (f : step_fn)
| ran_inner (name : string) (start : list ran) (steps : list (list ran))
| ran_checkpoint (path monitor mode : string)
| ran_early_stopping (monitor mode : string) (patience : Z)
| ran_progress (total : Z).

(** Modelled from the spec: one step of the loop (missing: [ciclo.loop]);
    the entries of the table are visited in order and the callbacks of
    those that are due run in order. *)
Definition step_events (table : list (schedule * list ran)) (k : Z) : list ran :=
  flat_map (fun entry => if due entry.1 k then entry.2 else []) table.

(** Modelled from the spec: the steps of a loop (missing: [ciclo.loop]),
    numbered from [first]. *)
Definition steps_from (table : list (schedule * list ran)) (first : Z) (n : nat)
  : list (Z * list ran) :=
  (fun i => (first + Z.of_nat i, step_events table (first + Z.of_nat i)))
    <$> seq 0 n.

(** Modelled from the spec: what a callback does when it runs (missing:
    [ciclo.inner_loop], [ciclo.checkpoint], [ciclo.early_stopping],
    [ciclo.keras_bar]).  An inner loop runs its [on_start] callbacks and
    then its own table on each batch of its dataset; the progress bar is
    an entry of the table that is due on every step. *)
Fixpoint run_callback (w : world) (cb : callback) : option ran :=
  match cb with
  | call f => Some (ran_fn f)
  | inner_loop name ds tasks on_start stop =>
      n ← loop_steps (dataset_size w ds) stop;
      start ← mapM (run_callback w) on_start;
      table ← mapM (fun t =>
                      match t with
                      | on s cbs => rs ← mapM (run_callback w) cbs; Some (s, rs)
                      | keras_bar total => Some (every 1, [ran_progress total])
                      end) tasks;
      Some (ran_inner name start (snd <$> steps_from table (first_step w) n))
  | checkpoint path monitor mode => Some (ran_checkpoint path monitor mode)
  | early_stopping monitor mode patience =>
      Some (ran_early_stopping monitor mode patience)
  end.

(** Modelled from the spec: the callback table of a loop call (missing:
    [ciclo.loop]), each callback replaced by what it does when it runs. *)
Definition run_table (w : world) (tasks : list (task callback))
  : option (list (schedule * list ran)) :=
  mapM (fun t =>
          match t with
          | on s cbs => rs ← mapM (run_callback w) cbs; Some (s, rs)
          | keras_bar total => Some (every 1, [ran_progress total])
          end) tasks.

(** Modelled from the spec: the steps of a loop call when nothing stops it
    early (missing: [ciclo.loop]), after what ran at its start. *)
Definition loop_trace (w : world) (l : loop_call)
  : option (list ran * list (Z * list ran)) :=
  n ← loop_steps (dataset_size w (loop_dataset l)) (loop_stop l);
  start ← mapM (run_callback w) (loop_on_start l);
  table ← run_table w (loop_tasks l);
  Some (start, steps_from table (first_step w) n).

Definition asks_to_stop (events : list ran) : bool :=
  existsb (fun r => match r with
                    | ran_early_stopping _ _ _ => true
                    | _ => false
                    end) events.

(** Modelled from the spec: early stopping (missing: [ciclo.loop],
    [ciclo.early_stopping]); a run makes the steps of the loop one after
    the other and may end after any step in which an early-stopping
    callback ran. *)
Inductive run_of : list (Z * list ran) -> list (Z * list ran) -> Prop :=
| run_to_the_end : run_of [] []
| run_on (step : Z * list ran) (steps run : list (Z * list ran)) :
    run_of steps run -> run_of (step :: steps) (step :: run)
| run_stopped (step : Z * list ran) (steps : list (Z * list ran)) :
    asks_to_stop step.2 = true -> run_of (step :: steps) [step].

(** Whether a step function ran, be it inside an inner loop. *)
Fixpoint runs_fn (f : step_fn) (r : ran) : bool :=
  match r with
  | ran_fn g => bool_decide (g = f)
  | ran_inner _ start steps =>
      existsb (runs_fn f) start || existsb (existsb (runs_fn f)) steps
  | _ => false
  end.

(** ** A small executable instance

    Fixed-point numbers (thousandths) for the floats, sums and counts for
    the metrics and a constant-gradient optimizer: enough to run the script
    functions on concrete inputs. *)

Module Toy.
Definition numeric : Numeric :=
  {| F := Z; f0 := 0; f255 := 255000; f1e_3 := 1;
     fadd := Z.add;
     fmul := fun a b => a * b / 1000;
     fdiv := fun a b => a * 1000 / b |}.

#[local] Existing Instance numeric.

Definition scalar (v : Z) : Array := mkArray [] [v].

Definition total (x : Array) : Z := fold_right Z.add 0 (data x).

Definition count (x : Array) : Z := Z.of_nat (length (data x)).

Fixpoint argmax_from (best : Z) (besti i : nat) (row : list Z) : nat :=
  match row with
  | [] => besti
  | v :: row' =>
      if best <? v then argmax_from v i (S i) row'
      else argmax_from best besti (S i) row'
  end.

Definition argmax (row : list Z) : Z :=
  match row with
  | [] => 0
  | v :: row' => Z.of_nat (argmax_from v 0%nat 1%nat row')
  end.

Definition hits (logits labels : Array) : list Z :=
  zip_with (fun row y => if argmax row =? y then 1000 else 0)
           (chunks (length (data labels)) (List.last (shape logits) 1%nat) (data logits))
           (data labels).

Definition cross_entropy (logits labels : Array) : result Array :=
  match shape logits with
  | [b; _] =>
      if decide (shape labels = [b])
      then Ok (mkArray [b] (map (fun h => 1000 - h) (hits logits labels)))
      else Raise TypeError
  | _ => Raise TypeError
  end.

Definition average (name : string) : Metric (Z * Z) :=
  {| metric_from_model_output := fun kw =>
       v ← subscript kw name; Ok (total v, count v);
     metric_merge := fun a b => Ok (a.1 + b.1, a.2 + b.2);
     metric_compute := fun a => Ok (scalar (a.1 / a.2));
     metric_empty := Ok (0, 0) |}.

Definition accuracy : Metric (Z * Z) :=
  {| metric_from_model_output := fun kw =>
       match kw !! "logits", kw !! "labels" with
       | Some logits, Some labels =>
           Ok (fold_right Z.add 0 (hits logits labels), count labels)
       | _, _ => Raise TypeError
       end;
     metric_merge := fun a b => Ok (a.1 + b.1, a.2 + b.2);
     metric_compute := fun a => Ok (scalar (a.1 / a.2));
     metric_empty := Ok (0, 0) |}.

Definition ones_like (a : Array) : Array :=
  mkArray (shape a) (map (fun _ => 1000) (data a)).

Definition constant_grad (f : Params -> result (Array * Array)) (p : Params)
  : result Params :=
  _ ← f p; Ok (fmap (M := gmap string) (fmap (M := gmap string) ones_like) p).

Definition init (apply : Variables -> Array -> result Array) (key : Z) (x : Array)
  : result Variables :=
  let n := numel (tail (shape x)) in
  let vars : Variables :=
    {["params" :=
        {["Dense_0" :=
            <["bias" := mkArray [10%nat] (repeat 0 10)]>
              {["kernel" := mkArray [n; 10%nat] (repeat key (n * 10))]}]}]} in
  _ ← apply vars x; Ok vars.

Definition log_metrics (logs : gmap string kwargs) (m : kwargs) (stateful : bool)
  : result (gmap string kwargs) :=
  Ok (<[(if stateful then "stateful_metrics" else "metrics") := m]> logs).

Definition backend : Backend :=
  {| Key := Z;
     PRNGKey := fun seed => Ok seed;
     jnp_empty := fun sh => Ok (mkArray sh (repeat 0 (numel sh)));
     grad := constant_grad;
     module_init := init;
     Tx := Z;
     OptState := Z;
     adamw := fun lr => Ok lr;
     softmax_cross_entropy_with_integer_labels := cross_entropy;
     mean := fun x => Ok (scalar (total x / count x));
     Average := Z * Z;
     Accuracy := Z * Z;
     Average_from_output := average;
     Accuracy_metric := accuracy;
     Logs := gmap string kwargs;
     ciclo_logs := ∅;
     add_metrics := log_metrics |}.

#[local] Existing Instance backend.

Definition descend (lr : Z) (p g : Array) : Array :=
  mkArray (shape p) (zip_with (fun v d => v - lr * d / 1000) (data p) (data g)).

Definition descend_all (lr : Z) (p g : Params) : Params :=
  map_zip_with (M := gmap string)
    (map_zip_with (M := gmap string) (descend lr)) p g.

Definition flax : Flax :=
  {| TrainState_create := fun apply p tx m => Ok (mkTrainState 0 apply p tx 0 m);
     apply_gradients := fun s g =>
       Ok (mkTrainState (step s + 1) (apply_fn s)
             (descend_all (tx s) (params s) g)
             (tx s) (opt_state s + 1) (metrics s)) |}.

#[local] Existing Instance flax.

(** A model for two-pixel images, one image and its label. *)
Definition small_params : Params :=
  {["Dense_0" :=
      <["bias" := mkArray [10%nat] [0; 0; 0; 500; 0; 0; 0; 0; 0; 0]]>
        {["kernel" := mkArray [2%nat; 10%nat]
                        [1000; 0; 0; 2000; 0; 0; 0; 0; 0; 0;
                         0; 1000; 0; 0; 0; 0; 0; 3000; 0; 0]]}]}.

Definition small_batch : Batch :=
  mkBatch (mkArray [1; 1; 2; 1]%nat [255000; 51000]) (mkArray [1%nat] [3]).

Definition other_batch : Batch :=
  mkBatch (mkArray [1; 1; 2; 1]%nat [0; 255000]) (mkArray [1%nat] [3]).

Definition small_state : TrainState :=
  mkTrainState 7 Linear_apply small_params 1 7 (mkMetrics (0, 0) (0, 0)).

Definition trained_params : Params :=
  {["Dense_0" :=
      <["bias" := mkArray [10%nat] [-1; -1; -1; 499; -1; -1; -1; -1; -1; -1]]>
        {["kernel" := mkArray [2%nat; 10%nat]
                        [999; -1; -1; 1999; -1; -1; -1; -1; -1; -1;
                         -1; 999; -1; -1; -1; -1; -1; 2999; -1; -1]]}]}.

(** What [train_step] and [eval_step] return on them. *)
Definition trained : TrainState :=
  mkTrainState 8 Linear_apply trained_params 1 8 (mkMetrics (0, 1) (1000, 1)).

Definition evaluated : TrainState :=
  mkTrainState 7 Linear_apply small_params 1 7 (mkMetrics (0, 1) (1000, 1)).

Definition evaluated_logs : gmap string kwargs :=
  {["stateful_metrics" := <["accuracy" := scalar 1000]> {["loss" := scalar 0]}]}.

(** A state with another apply function. *)
Definition broken_state : TrainState :=
  mkTrainState 7 (fun _ _ => Raise TypeError) small_params 1 7
               (mkMetrics (0, 0) (0, 0)).

(** Model outputs of two batches, and a collection that has seen one. *)
Definition hit_outputs : kwargs :=
  update_kwargs (scalar 0) (mkArray [1; 10]%nat [1000; 200; 0; 2500; 0; 0; 0; 600; 0; 0])
                small_batch.

Definition miss_outputs : kwargs :=
  update_kwargs (scalar 1000) (mkArray [1; 10]%nat [0; 1000; 0; 0; 0; 0; 0; 3000; 0; 0])
                other_batch.

Definition running : Metrics := mkMetrics (500, 1) (0, 1).
Definition hit_update : Metrics := mkMetrics (0, 1) (1000, 1).
Definition miss_update : Metrics := mkMetrics (1000, 1) (0, 1).
Definition after_hit : Metrics := mkMetrics (500, 2) (1000, 2).
Definition after_both : Metrics := mkMetrics (1500, 3) (1000, 3).
Definition no_metrics : Metrics := mkMetrics (0, 0) (0, 0).

(** Both batches evaluated in turn, and the two images as one batch. *)
Definition evaluated_twice : TrainState :=
  mkTrainState 7 Linear_apply small_params 1 7 (mkMetrics (1000, 2) (1000, 2)).

Definition evaluated_twice_logs : gmap string kwargs :=
  {["stateful_metrics" := <["accuracy" := scalar 500]> {["loss" := scalar 500]}]}.

Definition both_images : Array :=
  mkArray [2; 1; 2; 1]%nat [255000; 51000; 0; 255000].

Definition both_images_flat : Array :=
  mkArray [2; 2]%nat [255000; 51000; 0; 255000].

Definition small_logits : Array :=
  mkArray [1; 10]%nat [1000; 200; 0; 2500; 0; 0; 0; 600; 0; 0].

Definition other_logits : Array :=
  mkArray [1; 10]%nat [0; 1000; 0; 500; 0; 0; 0; 3000; 0; 0].

Definition both_logits : Array :=
  mkArray [2; 10]%nat [1000; 200; 0; 2500; 0; 0; 0; 600; 0; 0;
                       0; 1000; 0; 500; 0; 0; 0; 3000; 0; 0].

(** A state that differs from [small_state] in the step counter and the
    optimizer only. *)
Definition later_state : TrainState :=
  mkTrainState 90 Linear_apply small_params 3 45 (mkMetrics (0, 0) (0, 0)).

Definition later_evaluated : TrainState :=
  mkTrainState 90 Linear_apply small_params 3 45 (mkMetrics (0, 1) (1000, 1)).

(** No fault in [jax.jit], [replace] or [ciclo.logs()], and a batch
    without labels. *)
Definition no_faults : Faults :=
  {| jit_dispatch := fun _ _ => Ok tt;
     jit_execute := fun _ _ => Ok tt;
     dataclass_replace := fun _ _ => Ok tt;
     logs_new := Ok tt |}.

Definition unlabelled_batch : kwargs :=
  {["image" := mkArray [1; 1; 2; 1]%nat [255000; 51000]]}.

(** An MNIST-sized input and parameters. *)
Definition mnist_image : Array := mkArray [1; 28; 28; 1]%nat (repeat 255000 784).

Definition mnist_params : Params :=
  {["Dense_0" :=
      <["bias" := mkArray [10%nat] (repeat 500 10)]>
        {["kernel" := mkArray [784%nat; 10%nat] (repeat 1 (784 * 10))]}]}.
End Toy.

(** * Properties *)

(** ** The exception monad *)

Lemma bind_Ok {A B : Type} (m : result A) (k : A -> result B) (b : B) :
  m ≫= k = Ok b <-> exists a, m = Ok a /\ k a = Ok b.
Proof.
  destruct m as [a|e]; simpl; split.
  - intros Hk. exists a. split; [reflexivity | exact Hk].
  - intros (a' & Ha & Hk). injection Ha as ->. exact Hk.
  - discriminate.
  - intros (a' & Ha & _). discriminate.
Qed.

Lemma bind_Raise {A B : Type} (m : result A) (k : A -> result B) (e : exn) :
  m ≫= k = Raise e <-> m = Raise e \/ exists a, m = Ok a /\ k a = Raise e.
Proof.
  destruct m as [a|e']; simpl; split.
  - intros Hk. right. exists a. split; [reflexivity | exact Hk].
  - intros [Hm | (a' & Ha & Hk)]; [discriminate | ]. injection Ha as ->. exact Hk.
  - intros Hm. left. injection Hm as ->. reflexivity.
  - intros [Hm | (a' & Ha & _)]; [ | discriminate]. injection Hm as ->. reflexivity.
Qed.

Lemma bind_ret {A : Type} (m : result A) : m ≫= Ok = m.
Proof. destruct m; reflexivity. Qed.

Lemma bind_assoc {A B C : Type} (m : result A) (k1 : A -> result B)
      (k2 : B -> result C) :
  (m ≫= k1) ≫= k2 = m ≫= (fun a => k1 a ≫= k2).
Proof. destruct m; reflexivity. Qed.

(** A sequence fails with the exception of its first operation, or with
    that of what follows once the first has returned. *)
Lemma raises_or_bind {A B : Type} (m : result A) (k : A -> result B) (e : exn)
      (rest : A -> Prop) :
  (forall a, k a = Raise e <-> rest a) ->
  (m ≫= k = Raise e <-> raises_or m e rest).
Proof.
  intros Hk. unfold raises_or. rewrite bind_Raise. split.
  - intros [Hm | (a & Ha & Hka)]; [left; exact Hm | right].
    exists a. split; [exact Ha | apply Hk; exact Hka].
  - intros [Hm | (a & Ha & Hr)]; [left; exact Hm | right].
    exists a. split; [exact Ha | apply Hk; exact Hr].
Qed.

(** Follow a function operation by operation. *)
Ltac first_failure :=
  repeat first
    [ rewrite bind_assoc
    | apply raises_or_bind; intros ?
    | match goal with
      | |- (let '(_, _) := ?p in _) = Raise _ <-> _ => destruct p
      | |- _ <-> (let '(_, _) := ?p in _) => destruct p
      | |- Ok _ = Raise _ <-> False => split; [discriminate | contradiction]
      end
    | progress cbn [mbind result_bind] ].

(** Take the calls of a sequence one after the other. *)
Ltac step_calls :=
  repeat match goal with
    | |- context [?m ≫= _] =>
        lazymatch m with
        | _ ≫= _ => fail
        | Ok _ => fail
        | _ => destruct m; cbn [mbind result_bind]; [ | reflexivity]
        end
    end.

(** Split a successful run into the successful calls it is made of. *)
Ltac inv_ok :=
  repeat match goal with
    | H : _ ≫= _ = Ok _ |- _ =>
        apply bind_Ok in H; destruct H as (? & ? & H)
    | H : (let '(_, _) := ?p in _) = Ok _ |- _ => destruct p
    | H : Ok _ = Ok _ |- _ => injection H as H; subst
    end.

(** ** The loop call *)

Lemma due_every_1 (k : Z) : due (every 1) k = true.
Proof. unfold due. rewrite Z.mod_1_r. reflexivity. Qed.

Lemma steps_from_length (table : list (schedule * list ran)) (first : Z) (n : nat) :
  length (steps_from table first n) = n.
Proof. unfold steps_from. rewrite length_fmap, length_seq. reflexivity. Qed.

Lemma steps_from_lookup (table : list (schedule * list ran)) (first : Z) (n i : nat) :
  (i < n)%nat ->
  steps_from table first n !! i
  = Some (first + Z.of_nat i, step_events table (first + Z.of_nat i)).
Proof.
  intros Hi. unfold steps_from.
  rewrite list_lookup_fmap, lookup_seq_lt by exact Hi. reflexivity.
Qed.

(** An inner loop whose table has one entry, due on every step, runs that
    entry once for each batch. *)
Lemma every_step_loop (events : list ran) (first : Z) (n : nat) :
  snd <$> steps_from [(every 1, events)] first n = replicate n events.
Proof.
  unfold steps_from. rewrite <- list_fmap_compose.
  generalize 0%nat. induction n as [ | n IH]; intros j; [reflexivity | ].
  cbn [seq fmap list_fmap replicate]. rewrite IH. f_equal.
  unfold compose, step_events. cbn [flat_map fst snd].
  rewrite due_every_1. apply app_nil_r.
Qed.

(** A run is a beginning of the steps of the loop, and one that is not all
    of them ends with a step in which early stopping was checked. *)
Lemma run_of_prefix (steps run : list (Z * list ran)) :
  run_of steps run ->
  run `prefix_of` steps /\
  ((length run < length steps)%nat ->
   exists step, last run = Some step /\ asks_to_stop step.2 = true).
Proof.
  induction 1 as [ | step steps run Hrun [IHp IHl] | step steps Hstop].
  - split; [reflexivity | ]. cbn [length]. lia.
  - split; [apply prefix_cons; exact IHp | ].
    cbn [length]. intros Hlen. destruct IHl as (st & Hlast & Hst); [lia | ].
    exists st. split; [ | exact Hst]. rewrite last_cons, Hlast. reflexivity.
  - split; [apply prefix_cons, prefix_nil | ].
    intros _. exists step. split; [reflexivity | exact Hstop].
Qed.

(** Validation is due on logging steps only: 10 is a multiple of 2. *)
Lemma eval_step_is_log_step (k : Z) : k mod eval_steps = 0 -> k mod log_steps = 0.
Proof.
  change eval_steps with 10. change log_steps with 2.
  intros Heval. Z.div_mod_to_equations. lia.
Qed.

(** The steps of the training loop: what runs at the step numbered [k]. *)
Lemma training_loop_steps (now : Z) (w : world) :
  exists steps,
    loop_trace w (training_loop now) = Some ([], steps) /\
    length steps = 100%nat /\
    forall i, (i < 100)%nat ->
      steps !! i =
      Some (first_step w + Z.of_nat i,
            [ran_fn fn_train_step] ++
            (if (first_step w + Z.of_nat i) mod log_steps =? 0
             then [ran_fn fn_compute_metrics; ran_fn fn_reset_metrics] else []) ++
            (if (first_step w + Z.of_nat i) mod eval_steps =? 0
             then [ ran_inner "valid" [ran_fn fn_reset_metrics]
                              (replicate (valid_batches w) [ran_fn fn_eval_step]);
                    ran_checkpoint (checkpoint_path now) "accuracy_valid" "max";
                    ran_early_stopping "accuracy_valid" "max" (eval_steps * 2) ]
             else []) ++
            [ran_progress total_steps]).
Proof.
  eexists. split; [reflexivity | ].
  split; [apply steps_from_length | ].
  intros i Hi. rewrite steps_from_lookup by exact Hi. f_equal. f_equal.
  unfold step_events. cbn [flat_map fst snd]. rewrite !due_every_1.
  rewrite every_step_loop. unfold due. rewrite app_nil_r. reflexivity.
Qed.

(** C1: the loop call runs [train_step] on every step, [compute_metrics]
    then [reset_metrics] every [log_steps = total_steps // 50 = 2] steps,
    and every [eval_steps = total_steps // 10 = 10] steps the validation
    inner loop, then a checkpoint and early stopping, both on
    accuracy_valid with mode max, the latter with patience
    [eval_steps * 2]; the progress bar is updated on every step, and the
    loop makes [total_steps = total_samples // batch_size = 100] steps,
    fewer only when early stopping ends it. *)
Theorem loop_configuration (now : Z) (w : world) :
  total_steps = total_samples / batch_size /\ total_steps = 100 /\
  log_steps = total_steps / 50 /\ log_steps = 2 /\
  eval_steps = total_steps / 10 /\ eval_steps = 10 /\
  loop_tasks (training_loop now) =
    [ on (every 1) [call fn_train_step];
      on (every 2) [call fn_compute_metrics; call fn_reset_metrics];
      on (every 10)
         [ inner_loop "valid" ds_valid
                      [on (every 1) [call fn_eval_step]]
                      [call fn_reset_metrics] None;
           checkpoint ("logdir/mnist_full/" +:+ pretty now) "accuracy_valid" "max";
           early_stopping "accuracy_valid" "max" 20 ];
      keras_bar 100 ] /\
  eval_steps * 2 = 20 /\
  loop_on_start (training_loop now) = [] /\
  loop_dataset (training_loop now) = ds_train /\
  loop_stop (training_loop now) = Some 100 /\
  sites_of fn_train_step (training_loop now) = [[at_schedule (every 1)]] /\
  sites_of fn_compute_metrics (training_loop now) = [[at_schedule (every log_steps)]] /\
  sites_of fn_eval_step (training_loop now) =
    [[at_schedule (every eval_steps); within "valid"; at_schedule (every 1)]] /\
  exists steps,
    loop_trace w (training_loop now) = Some ([], steps) /\
    length steps = 100%nat /\
    (forall i, (i < 100)%nat ->
       steps !! i =
       Some (first_step w + Z.of_nat i,
             [ran_fn fn_train_step] ++
             (if (first_step w + Z.of_nat i) mod log_steps =? 0
              then [ran_fn fn_compute_metrics; ran_fn fn_reset_metrics] else []) ++
             (if (first_step w + Z.of_nat i) mod eval_steps =? 0
              then [ ran_inner "valid" [ran_fn fn_reset_metrics]
                               (replicate (valid_batches w) [ran_fn fn_eval_step]);
                     ran_checkpoint (checkpoint_path now) "accuracy_valid" "max";
                     ran_early_stopping "accuracy_valid" "max" (eval_steps * 2) ]
              else []) ++
             [ran_progress total_steps])) /\
    (forall run, run_of steps run ->
       run `prefix_of` steps /\ (length run <= 100)%nat /\
       ((length run < 100)%nat ->
        exists k events, last run = Some (k, events) /\ k mod eval_steps = 0)).
Proof.
  repeat match goal with |- _ /\ _ => split end; try reflexivity.
  destruct (training_loop_steps now w) as (steps & Htrace & Hlen & Hsteps).
  exists steps. split; [exact Htrace | ]. split; [exact Hlen | ].
  split; [exact Hsteps | ].
  - intros run Hrun. apply run_of_prefix in Hrun. destruct Hrun as [Hpre Hstop].
    split; [exact Hpre | ].
    split; [rewrite <- Hlen; apply prefix_length; exact Hpre | ].
    intros Hshort. destruct Hstop as ([k events] & Hlast & Hasks); [lia | ].
    exists k, events. split; [exact Hlast | ].
    assert (Hin : (k, events) ∈ steps).
    { destruct Hpre as [rest ->]. apply elem_of_app. left.
      apply last_Some_elem_of. exact Hlast. }
    apply list_elem_of_lookup_1 in Hin. destruct Hin as [i Hi].
    assert (Hlt : (i < 100)%nat) by (rewrite <- Hlen; eapply lookup_lt_Some; exact Hi).
    rewrite (Hsteps i Hlt) in Hi. injection Hi as <- <-. cbn [snd] in Hasks.
    destruct ((first_step w + Z.of_nat i) mod eval_steps =? 0) eqn:Heval.
    + apply Z.eqb_eq. exact Heval.
    + destruct ((first_step w + Z.of_nat i) mod log_steps =? 0); discriminate Hasks.
Qed.

(** ** The model *)

Section ModelProperties.
Context {NUM : Numeric}.

Lemma reshape_rows_batch (x : Array) (b k : nat) :
  length (data x) = (b * k)%nat -> (0 < b)%nat ->
  reshape_rows x b = Ok (mkArray [b; k] (data x)).
Proof.
  intros Hlen Hb. unfold reshape_rows. rewrite Hlen.
  destruct (Nat.eqb_spec b 0) as [-> | Hne]; [inversion Hb | ].
  rewrite (Nat.mul_comm b k), Nat.Div0.mod_mul, Nat.div_mul by exact Hne.
  reflexivity.
Qed.

Lemma scope_get_Ok {V : Type} (d : gmap string V) (key : string) (v : V) :
  scope_get d key = Ok v <-> d !! key = Some v.
Proof.
  unfold scope_get. destruct (d !! key); split; intros Heq;
    congruence || discriminate.
Qed.

(** The Dense layer on a matrix: one row of outputs per row of inputs. *)
Lemma Dense_rows (features : nat) (scope : gmap string Array) (b n : nat)
      (d : list F) (y : Array) :
  Dense features scope (mkArray [b; n] d) = Ok y <->
  exists kernel bias,
    scope !! "kernel" = Some kernel /\ scope !! "bias" = Some bias /\
    shape kernel = [n; features] /\ shape bias = [features] /\
    y = mkArray [b; features]
          (concat (map (dense_row features (data kernel) (data bias))
                       (chunks b n d))).
Proof.
  unfold Dense. cbn [shape data List.last removelast numel fold_right app].
  rewrite Nat.mul_1_r. split.
  - intros Hd. inv_ok.
    match goal with H : (if ?c then _ else _) = Ok _ |- _ =>
      destruct c as [[Hk Hb] | _]; [ | discriminate H]; injection H as <- end.
    do 2 match goal with H : scope_get _ _ = Ok _ |- _ =>
      apply scope_get_Ok in H end.
    eauto 10.
  - intros (kernel & bias & Hk & Hb & Hsk & Hsb & ->).
    apply scope_get_Ok in Hk, Hb. rewrite Hk, Hb. simpl.
    destruct (decide _) as [_ | Hno]; [reflexivity | ].
    exfalso. apply Hno. split; assumption.
Qed.

(** On any batch of [b] inputs the model is the Dense layer on the scaled
    input, one row per example. *)
Lemma Linear_call_rows (params : Params) (x : Array) (b : nat) (rest : list nat) :
  wf_array x -> shape x = b :: rest -> (0 < b)%nat ->
  Linear_call params x =
    scope_get params "Dense_0" ≫= (fun scope =>
      Dense 10 scope (mkArray [b; numel rest] (map (fun v => fdiv v f255) (data x)))).
Proof.
  intros Hwf Hshape Hb.
  assert (Hlen : length (data x) = (b * numel rest)%nat).
  { rewrite Hwf, Hshape. reflexivity. }
  unfold Linear_call, shape0, true_divide. cbn [shape]. rewrite Hshape.
  cbn [mbind result_bind].
  rewrite (reshape_rows_batch _ b (numel rest));
    [ | cbn [data]; rewrite length_map; exact Hlen | exact Hb].
  cbn [mbind result_bind data].
  destruct (scope_get params "Dense_0") as [scope | e]; [ | reflexivity].
  cbn [mbind result_bind]. apply bind_ret.
Qed.

(** C3, as amended: on a batch of [b] MNIST images, [b] not zero, the
    model is one Dense layer with 10 features, applied to the pixels
    divided by 255.0 and laid out as a [b] by 784 matrix; the output is
    that layer's output, unchanged. *)
Theorem Linear_is_one_dense_layer (params : Params) (x : Array) (b : nat)
  (Hwf : wf_array x) (Hshape : shape x = [b; 28; 28; 1]%nat) (Hb : (0 < b)%nat) :
  let flat := mkArray [b; 784%nat] (map (fun v => fdiv v f255) (data x)) in
  wf_array flat /\
  Linear_call params x =
    scope_get params "Dense_0" ≫= (fun scope => Dense 10 scope flat) /\
  (forall y, Linear_call params x = Ok y <->
     exists scope kernel bias,
       params !! "Dense_0" = Some scope /\
       scope !! "kernel" = Some kernel /\ scope !! "bias" = Some bias /\
       shape kernel = [784; 10]%nat /\ shape bias = [10%nat] /\
       y = mkArray [b; 10%nat]
             (concat (map (dense_row 10 (data kernel) (data bias))
                          (chunks b 784 (data flat))))).
Proof.
  intros flat.
  assert (Hcall : Linear_call params x =
                  scope_get params "Dense_0" ≫= (fun scope => Dense 10 scope flat)).
  { exact (Linear_call_rows params x b [28; 28; 1]%nat Hwf Hshape Hb). }
  split; [ | split; [exact Hcall | ] ].
  - unfold wf_array, flat. cbn [data shape]. rewrite length_map, Hwf, Hshape.
    unfold numel. cbn [fold_right]. lia.
  - intros y. rewrite Hcall, bind_Ok. split.
    + intros (scope & Hs & Hd). apply scope_get_Ok in Hs.
      apply Dense_rows in Hd. destruct Hd as (kernel & bias & Hd).
      exists scope, kernel, bias. tauto.
    + intros (scope & kernel & bias & Hs & Hd).
      exists scope. split; [apply scope_get_Ok; exact Hs | ].
      apply Dense_rows. exists kernel, bias. tauto.
Qed.
End ModelProperties.

(** ** The metrics collection and the step functions *)

Section StepProperties.
Context {NUM : Numeric} {BE : Backend} {FL : Flax}.

Lemma replace_metrics_frame (s : TrainState) (m : Metrics) :
  metrics (replace_metrics s m) = m /\
  params (replace_metrics s m) = params s /\
  opt_state (replace_metrics s m) = opt_state s /\
  step (replace_metrics s m) = step s /\
  apply_fn (replace_metrics s m) = apply_fn s /\
  tx (replace_metrics s m) = tx s.
Proof. repeat split. Qed.

(** C5: [m.update] of keyword arguments [kw] is [m.merge] of
    [m.single_from_model_output] of [kw]; so two successive updates leave
    the collection merged with both batches of outputs, in that order. *)
Theorem update_is_merge (m : Metrics) (kw1 kw2 : kwargs) (u1 u2 m1 m2 : Metrics)
  (Hu1 : Metrics_single_from_model_output kw1 = Ok u1)
  (Hu2 : Metrics_single_from_model_output kw2 = Ok u2)
  (Hm1 : Metrics_merge m u1 = Ok m1)
  (Hm2 : Metrics_merge m1 u2 = Ok m2) :
  (forall (self : Metrics) (kw : kwargs),
      Metrics_update self kw =
      Metrics_single_from_model_output kw ≫= Metrics_merge self) /\
  Metrics_update m kw1 = Ok m1 /\
  Metrics_update m kw1 ≫= (fun m' => Metrics_update m' kw2) = Ok m2.
Proof.
  split; [reflexivity | ].
  assert (H1 : Metrics_update m kw1 = Ok m1).
  { unfold Metrics_update. rewrite Hu1. exact Hm1. }
  split; [exact H1 | ].
  rewrite H1. simpl. unfold Metrics_update. rewrite Hu2. exact Hm2.
Qed.

(** C6: [reset_metrics] returns the input state with [metrics] replaced
    by the empty collection and every other field as it was. *)
Theorem reset_metrics_frame {B C : Type} (s : TrainState) (batch : B) (third : C)
  (m : Metrics) (Hempty : Metrics_empty = Ok m) :
  exists s', reset_metrics s batch third = Ok s' /\
             s' = replace_metrics s m /\
             metrics s' = m /\
             params s' = params s /\
             opt_state s' = opt_state s /\
             step s' = step s /\
             apply_fn s' = apply_fn s /\
             tx s' = tx s.
Proof.
  exists (replace_metrics s m). unfold reset_metrics. rewrite Hempty.
  repeat split.
Qed.

(** C10: the result of [reset_metrics] depends on the state only: any two
    choices of the batch and of the third argument give the same result,
    be it a state or an exception, on values and on objects alike. *)
Theorem reset_metrics_ignores_arguments {B B' C C' : Type} (s : TrainState)
  (batch : B) (batch' : B') (third : C) (third' : C') :
  reset_metrics s batch third = reset_metrics s batch' third' /\
  forall (r : nat) (h : list TrainState),
    obj_reset_metrics r batch third h = obj_reset_metrics r batch' third' h.
Proof.
  split.
  - unfold reset_metrics. destruct Metrics_empty as [m | e]; reflexivity.
  - intros r h. unfold obj_reset_metrics.
    destruct (deref h r) as [s0 | e]; reflexivity.
Qed.

(** C9: the state returned by [eval_step] is the input state with another
    [metrics]: parameters, optimizer state, step counter and apply
    function (and the optimizer) are those of the input. *)
Theorem eval_step_frame (s : TrainState) (batch : Batch) (logs : Logs)
  (s' : TrainState) (Heval : eval_step s batch = Ok (logs, s')) :
  s' = replace_metrics s (metrics s') /\
  params s' = params s /\
  opt_state s' = opt_state s /\
  step s' = step s /\
  apply_fn s' = apply_fn s /\
  tx s' = tx s.
Proof.
  unfold eval_step in Heval. inv_ok. repeat split.
Qed.

(** C8: in [train_step] the loss and the logits that go into the returned
    metrics are those of the input state's parameters, and the returned
    parameters are those after [apply_gradients]. *)
Theorem train_step_metrics_precede_update (s : TrainState) (batch : Batch)
  (s' : TrainState) (Htrain : train_step s batch = Ok s') :
  exists (logits losses loss : Array) (grads : Params) (s1 : TrainState),
    apply_fn s {["params" := params s]} (image batch) = Ok logits /\
    softmax_cross_entropy_with_integer_labels logits (label batch) = Ok losses /\
    mean losses = Ok loss /\
    grad (loss_fn s batch) (params s) = Ok grads /\
    apply_gradients s grads = Ok s1 /\
    params s' = params s1 /\
    Metrics_update (metrics s1) (update_kwargs loss logits batch) = Ok (metrics s') /\
    s' = replace_metrics s1 (metrics s').
Proof.
  unfold train_step, value_and_grad in Htrain. inv_ok.
  match goal with H : loss_fn _ _ _ = Ok _ |- _ => unfold loss_fn in H end.
  inv_ok. eauto 15.
Qed.

Context {FA : Faults}.

(** C7: the step functions neither catch nor raise: each one fails
    exactly when one of the operations it performs fails, the earlier
    ones having returned, and then with that operation's exception.  The
    operations are those of the source, in its order: entering the
    compiled function, the subscripts of the batch, the library calls,
    [replace], and leaving the compiled function. *)
Theorem failures_propagate {B C : Type} (s : TrainState) (batch : kwargs)
  (b : B) (c : C) (e : exn) :
  (forall p, Strict.loss_fn s batch p = Raise e <->
     raises_or (subscript batch "image") e (fun image =>
     raises_or (apply_fn s {["params" := p]} image) e (fun logits =>
     raises_or (subscript batch "label") e (fun label =>
     raises_or (softmax_cross_entropy_with_integer_labels logits label) e (fun losses =>
     raises_or (mean losses) e (fun _ => False)))))) /\
  (Strict.train_step s batch = Raise e <->
     raises_or (jit_dispatch _ (s, batch)) e (fun _ =>
     raises_or (Strict.loss_fn s batch (params s)) e (fun '(loss, logits) =>
     raises_or (grad (Strict.loss_fn s batch) (params s)) e (fun grads =>
     raises_or (apply_gradients s grads) e (fun s1 =>
     raises_or (subscript batch "label") e (fun label =>
     raises_or (Metrics_single_from_model_output
                  (<["labels" := label]> (<["logits" := logits]> {["loss" := loss]})))
               e (fun updates =>
     raises_or (Metrics_merge (metrics s1) updates) e (fun m =>
     raises_or (dataclass_replace s1 m) e (fun _ =>
     raises_or (jit_execute _ (s, batch)) e (fun _ => False)))))))))) /\
  (Strict.compute_metrics s = Raise e <->
     raises_or (jit_dispatch _ s) e (fun _ =>
     raises_or (Metrics_compute (metrics s)) e (fun _ =>
     raises_or (jit_execute _ s) e (fun _ => False)))) /\
  (Strict.eval_step s batch = Raise e <->
     raises_or (jit_dispatch _ (s, batch)) e (fun _ =>
     raises_or (subscript batch "image") e (fun image =>
     raises_or (apply_fn s {["params" := params s]} image) e (fun logits =>
     raises_or (subscript batch "label") e (fun label =>
     raises_or (softmax_cross_entropy_with_integer_labels logits label) e (fun losses =>
     raises_or (mean losses) e (fun loss =>
     raises_or (subscript batch "label") e (fun label' =>
     raises_or (Metrics_single_from_model_output
                  (<["labels" := label']> (<["logits" := logits]> {["loss" := loss]})))
               e (fun updates =>
     raises_or (Metrics_merge (metrics s) updates) e (fun m =>
     raises_or logs_new e (fun _ =>
     raises_or (Metrics_compute m) e (fun computed =>
     raises_or (add_metrics ciclo_logs computed true) e (fun _ =>
     raises_or (dataclass_replace s m) e (fun _ =>
     raises_or (jit_execute _ (s, batch)) e (fun _ => False))))))))))))))) /\
  (Strict.reset_metrics s b c = Raise e <->
     raises_or Metrics_empty e (fun m =>
     raises_or (dataclass_replace s m) e (fun _ => False))).
Proof.
  repeat match goal with |- _ /\ _ => split end; try intros p.
  - unfold Strict.loss_fn. first_failure.
  - unfold Strict.train_step, Strict.jit, Strict.state_replace, value_and_grad,
      Metrics_update.
    first_failure.
  - unfold Strict.compute_metrics, Strict.jit. first_failure.
  - unfold Strict.eval_step, Strict.jit, Strict.state_replace, Metrics_update.
    first_failure.
  - unfold Strict.reset_metrics, Strict.state_replace. first_failure.
Qed.

(** With both keys in the batch and no fault in [jax.jit], [replace] and
    [ciclo.logs()], these are the step functions of the sections above. *)
Lemma strict_steps_agree {B C : Type} (s : TrainState) (batch : Batch) (b : B) (c : C) :
  (forall A x, jit_dispatch A x = Ok tt) ->
  (forall A x, jit_execute A x = Ok tt) ->
  (forall t m, dataclass_replace t m = Ok tt) ->
  logs_new = Ok tt ->
  Strict.train_step s (batch_dict batch) = train_step s batch /\
  Strict.compute_metrics s = compute_metrics s /\
  Strict.eval_step s (batch_dict batch) = eval_step s batch /\
  Strict.reset_metrics s b c = reset_metrics s b c.
Proof.
  intros Hd He Hr Hl.
  assert (Hloss : Strict.loss_fn s (batch_dict batch) = loss_fn s batch)
    by reflexivity.
  repeat match goal with |- _ /\ _ => split end.
  - unfold Strict.train_step, Strict.jit, train_step. rewrite Hd, Hloss.
    cbn [mbind result_bind].
    destruct (value_and_grad _ _) as [[[loss logits] grads] | e]; [ | reflexivity].
    cbn [mbind result_bind].
    destruct (apply_gradients s grads) as [s1 | e]; [ | reflexivity].
    cbn [mbind result_bind].
    change (subscript (batch_dict batch) "label") with (Ok (label batch)).
    cbn [mbind result_bind].
    destruct (Metrics_update _ _) as [m | e]; [ | reflexivity].
    cbn [mbind result_bind]. unfold Strict.state_replace. rewrite Hr, He.
    reflexivity.
  - unfold Strict.compute_metrics, Strict.jit, compute_metrics. rewrite Hd.
    cbn [mbind result_bind].
    destruct (Metrics_compute _) as [logs | e]; [ | reflexivity].
    cbn [mbind result_bind]. rewrite He. reflexivity.
  - unfold Strict.eval_step, Strict.jit, eval_step. rewrite Hd.
    cbn [mbind result_bind].
    change (subscript (batch_dict batch) "image") with (Ok (image batch)).
    change (subscript (batch_dict batch) "label") with (Ok (label batch)).
    cbn [mbind result_bind].
    unfold Strict.state_replace. rewrite Hl. cbn [mbind result_bind].
    step_calls.
    rewrite Hr. cbn [mbind result_bind]. rewrite He. reflexivity.
  - unfold Strict.reset_metrics, Strict.state_replace, reset_metrics.
    destruct Metrics_empty as [m | e]; [ | reflexivity].
    cbn [mbind result_bind]. rewrite Hr. reflexivity.
Qed.

(** *** Steps on objects *)

Lemma store_grows (h : list TrainState) (extra : list TrainState) (i : nat) (x : TrainState) :
  h !! i = Some x -> (h ++ extra) !! i = Some x.
Proof. intros Hi. apply lookup_app_l_Some. exact Hi. Qed.

Lemma obj_train_step_run (h : list TrainState) (r : nat) (s : TrainState) (batch : Batch) :
  h !! r = Some s ->
  obj_train_step r batch h =
    value_and_grad (loss_fn s batch) (params s) ≫= (fun '(loss, logits, grads) =>
      s1 ← apply_gradients s grads;
      m ← Metrics_update (metrics s1) (update_kwargs loss logits batch);
      Ok (S (length h), h ++ [s1; replace_metrics s1 m])).
Proof.
  intros Hr. unfold obj_train_step, deref. rewrite Hr. cbn [mbind result_bind].
  destruct (value_and_grad _ _) as [[[loss logits] grads] | e]; [ | reflexivity].
  cbn [mbind result_bind]. unfold obj_apply_gradients, deref. rewrite Hr.
  cbn [mbind result_bind].
  destruct (apply_gradients s grads) as [s1 | e]; [ | reflexivity].
  cbn [mbind result_bind]. unfold new at 1.
  rewrite list_lookup_middle by reflexivity. cbn [mbind result_bind].
  fold (update_kwargs loss logits batch).
  destruct (Metrics_update _ _) as [m | e]; [ | reflexivity].
  cbn [mbind result_bind]. unfold obj_replace_metrics, deref.
  rewrite list_lookup_middle by reflexivity. cbn [mbind result_bind].
  unfold new. rewrite length_app, <- app_assoc. cbn [length app].
  rewrite Nat.add_1_r. reflexivity.
Qed.

Lemma obj_eval_step_run (h : list TrainState) (r : nat) (s : TrainState) (batch : Batch) :
  h !! r = Some s ->
  obj_eval_step r batch h =
    eval_step s batch ≫= (fun '(logs, s') => Ok (logs, length h, h ++ [s'])).
Proof.
  intros Hr. unfold obj_eval_step, eval_step, deref. rewrite Hr.
  cbn [mbind result_bind].
  repeat match goal with
    | |- context [?m ≫= _] =>
        lazymatch m with
        | _ ≫= _ => fail
        | _ => destruct m; cbn [mbind result_bind]; [ | reflexivity]
        end
    end.
  unfold obj_replace_metrics, deref. rewrite Hr. reflexivity.
Qed.



(** C4, as amended: a training state is its six fields, the five of
    flax's [TrainState] and [metrics]; a [Metrics] collection is its two
    metrics, the average of the loss output and the accuracy, and it
    computes and reads exactly these two. *)
Theorem train_state_fields :
  (forall s : TrainState,
      s = mkTrainState (step s) (apply_fn s) (params s) (tx s) (opt_state s)
                       (metrics s)) /\
  (forall m : Metrics, m = mkMetrics (loss m) (accuracy m)) /\
  loss_metric = Average_from_output "loss" /\
  accuracy_metric = Accuracy_metric /\
  (forall (kw : kwargs) (m : Metrics),
      Metrics_single_from_model_output kw = Ok m <->
      @metric_from_model_output _ _ (Average_from_output "loss") kw = Ok (loss m) /\
      @metric_from_model_output _ _ Accuracy_metric kw = Ok (accuracy m)) /\
  (forall (m : Metrics) (d : kwargs),
      Metrics_compute m = Ok d ->
      dom d = {["loss"; "accuracy"]} /\
      (exists v, @metric_compute _ _ (Average_from_output "loss") (loss m) = Ok v /\
                 d !! "loss" = Some v) /\
      (exists v, @metric_compute _ _ Accuracy_metric (accuracy m) = Ok v /\
                 d !! "accuracy" = Some v)).
Proof.
  repeat match goal with |- _ /\ _ => split end; try reflexivity.
  - intros []. reflexivity.
  - intros []. reflexivity.
  - intros kw m. unfold Metrics_single_from_model_output, loss_metric, accuracy_metric.
    split.
    + intros Hs. inv_ok. split; assumption.
    + intros [Hl Ha]. rewrite Hl. cbn [mbind result_bind]. rewrite Ha.
      destruct m. reflexivity.
  - intros m d Hc. unfold Metrics_compute, loss_metric, accuracy_metric in Hc.
    inv_ok. split; [ | split].
    + rewrite dom_insert_L, dom_singleton_L. set_solver.
    + eexists. split; [eassumption | ].
      rewrite lookup_insert_ne by discriminate. apply lookup_singleton_eq.
    + eexists. split; [eassumption | ]. apply lookup_insert_eq.
Qed.
End StepProperties.

(** * The claims on the small instance *)

Section Runs.
#[local] Existing Instances Toy.numeric Toy.backend Toy.flax Toy.no_faults.

Lemma small_train_step : train_step Toy.small_state Toy.small_batch = Ok Toy.trained.
Proof. reflexivity. Qed.

Lemma small_eval_step :
  eval_step Toy.small_state Toy.small_batch = Ok (Toy.evaluated_logs, Toy.evaluated).
Proof. reflexivity. Qed.

Lemma loop_configuration_witness :
  exists steps,
    loop_trace (mkWorld 0 312) (training_loop 1700000000) = Some ([], steps) /\
    length steps = 100%nat /\
    steps !! 3%nat = Some (3, [ran_fn fn_train_step; ran_progress 100]) /\
    steps !! 4%nat =
      Some (4, [ran_fn fn_train_step; ran_fn fn_compute_metrics;
                ran_fn fn_reset_metrics; ran_progress 100]) /\
    steps !! 10%nat =
      Some (10, [ran_fn fn_train_step; ran_fn fn_compute_metrics;
                 ran_fn fn_reset_metrics;
                 ran_inner "valid" [ran_fn fn_reset_metrics]
                           (replicate 312 [ran_fn fn_eval_step]);
                 ran_checkpoint "logdir/mnist_full/1700000000" "accuracy_valid" "max";
                 ran_early_stopping "accuracy_valid" "max" 20;
                 ran_progress 100]) /\
    steps !! 100%nat = None.
Proof.
  destruct (loop_configuration 1700000000 (mkWorld 0 312))
    as (_ & _ & _ & _ & _ & _ & _ & _ & _ & _ & _ & _ & _ & _ &
        steps & Htrace & Hlen & Hat & _).
  exists steps. split; [exact Htrace | ]. split; [exact Hlen | ].
  split; [apply (Hat 3%nat); lia | ].
  split; [apply (Hat 4%nat); lia | ].
  split; [apply (Hat 10%nat); lia | ].
  apply lookup_ge_None. lia.
Defined.


(** The claim that the model is the Dense layer on a (batch, 784) matrix
    for every input batch fails twice: on an empty batch of MNIST images
    the reshape raises though the layer would return, and a batch of
    two-pixel images is laid out as a (batch, 2) matrix and the model
    returns where a layer on 784 columns would not. *)
Lemma Linear_not_on_every_batch :
  ~ (forall (params : Params) (x : Array) (b : nat),
        wf_array x -> shape x = [b; 28; 28; 1]%nat ->
        Linear_call params x =
        scope_get params "Dense_0" ≫= (fun scope =>
          Dense 10 scope (mkArray [b; 784%nat] (map (fun v => fdiv v f255) (data x))))) /\
  ~ (forall (params : Params) (x : Array) (b : nat) (rest : list nat),
        wf_array x -> shape x = b :: rest -> (0 < b)%nat ->
        Linear_call params x =
        scope_get params "Dense_0" ≫= (fun scope =>
          Dense 10 scope (mkArray [b; 784%nat] (map (fun v => fdiv v f255) (data x))))).
Proof.
  split.
  - intros Hall.
    specialize (Hall Toy.mnist_params (mkArray [0; 28; 28; 1]%nat []) 0%nat
                     eq_refl eq_refl).
    vm_compute in Hall. discriminate Hall.
  - intros Hall.
    specialize (Hall Toy.small_params (image Toy.small_batch) 1%nat [1; 2; 1]%nat
                     eq_refl eq_refl).
    assert (Hpos : (0 < 1)%nat) by lia. specialize (Hall Hpos).
    vm_compute in Hall. discriminate Hall.
Qed.

Lemma Linear_is_one_dense_layer_witness :
  wf_array Toy.mnist_image /\
  shape Toy.mnist_image = [1; 28; 28; 1]%nat /\
  exists y, Linear_call Toy.mnist_params Toy.mnist_image = Ok y /\
            shape y = [1; 10]%nat /\
            data y = [1284; 1284; 1284; 1284; 1284; 1284; 1284; 1284; 1284; 1284].
Proof.
  split; [vm_compute; reflexivity | ]. split; [reflexivity | ].
  destruct (Linear_is_one_dense_layer Toy.mnist_params Toy.mnist_image 1)
    as (_ & _ & Hlayer).
  - vm_compute. reflexivity.
  - reflexivity.
  - lia.
  - eexists. split; [ | split].
    + apply Hlayer. eexists _, _, _.
      split; [reflexivity | ]. split; [reflexivity | ]. split; [reflexivity | ].
      split; [reflexivity | ]. split; reflexivity.
    + reflexivity.
    + vm_compute. reflexivity.
Defined.

(** The claim that the state bundles exactly parameters, optimizer state
    and metrics fails: two states can agree on all three and still differ,
    here in the apply function that both steps call. *)
Lemma train_state_not_three_fields :
  ~ (forall s1 s2 : TrainState,
        params s1 = params s2 -> opt_state s1 = opt_state s2 ->
        metrics s1 = metrics s2 -> s1 = s2).
Proof.
  intros Hthree.
  specialize (Hthree Toy.small_state Toy.broken_state eq_refl eq_refl eq_refl).
  assert (Hcall : apply_fn Toy.small_state {["params" := Toy.small_params]}
                           (image Toy.small_batch) =
                  apply_fn Toy.broken_state {["params" := Toy.small_params]}
                           (image Toy.small_batch))
    by (rewrite Hthree; reflexivity).
  vm_compute in Hcall. discriminate Hcall.
Qed.

Lemma train_state_fields_witness :
  exists d : kwargs,
    Metrics_compute Toy.running = Ok d /\ dom d = {["loss"; "accuracy"]} /\
    d !! "loss" = Some (Toy.scalar 500).
Proof.
  destruct train_state_fields as (_ & _ & _ & _ & _ & Hcompute).
  eexists. split; [reflexivity | ].
  edestruct Hcompute as (Hdom & (v & Hv & Hloss) & _); [reflexivity | ].
  split; [exact Hdom | ]. rewrite Hloss. f_equal.
  injection Hv as <-. reflexivity.
Defined.

Lemma update_is_merge_witness :
  Metrics_update Toy.running Toy.hit_outputs
    ≫= (fun m' => Metrics_update m' Toy.miss_outputs)
  = Ok Toy.after_both /\
  Metrics_single_from_model_output Toy.miss_outputs = Ok Toy.miss_update /\
  Toy.after_both <> Toy.miss_update.
Proof.
  destruct (update_is_merge Toy.running Toy.hit_outputs Toy.miss_outputs
              Toy.hit_update Toy.miss_update Toy.after_hit Toy.after_both)
    as (_ & _ & Htwice).
  - reflexivity.
  - reflexivity.
  - reflexivity.
  - reflexivity.
  - split; [exact Htwice | ]. split; [reflexivity | discriminate].
Defined.

Lemma reset_metrics_frame_witness :
  exists s', reset_metrics Toy.trained Toy.small_batch 8 = Ok s' /\
             s' = replace_metrics Toy.trained Toy.no_metrics /\
             metrics s' = Toy.no_metrics /\
             params s' = Toy.trained_params /\
             opt_state s' = 8 /\
             step s' = 8 /\
             apply_fn s' = Linear_apply /\
             tx s' = 1.
Proof.
  apply (reset_metrics_frame Toy.trained Toy.small_batch 8 Toy.no_metrics).
  reflexivity.
Defined.

Lemma failures_propagate_witness :
  Strict.eval_step Toy.small_state Toy.unlabelled_batch = Raise (KeyError "label") /\
  Strict.train_step Toy.small_state Toy.unlabelled_batch = Raise (KeyError "label") /\
  Strict.train_step Toy.small_state (batch_dict Toy.small_batch) = Ok Toy.trained.
Proof.
  destruct (failures_propagate Toy.small_state Toy.unlabelled_batch tt tt
              (KeyError "label"))
    as (Hloss & Htrain & _ & Heval & _).
  split; [ | split].
  - apply Heval.
    right. eexists. split; [reflexivity | ].
    right. eexists. split; [reflexivity | ].
    right. eexists. split; [reflexivity | ].
    left. reflexivity.
  - apply Htrain.
    right. eexists. split; [reflexivity | ].
    left. apply Hloss.
    right. eexists. split; [reflexivity | ].
    right. eexists. split; [reflexivity | ].
    left. reflexivity.
  - reflexivity.
Defined.

Lemma train_step_metrics_precede_update_witness :
  exists (logits losses loss : Array) (grads : Params) (s1 : TrainState),
    apply_fn Toy.small_state {["params" := Toy.small_params]}
             (image Toy.small_batch) = Ok logits /\
    softmax_cross_entropy_with_integer_labels logits (label Toy.small_batch)
      = Ok losses /\
    mean losses = Ok loss /\
    grad (loss_fn Toy.small_state Toy.small_batch) Toy.small_params = Ok grads /\
    apply_gradients Toy.small_state grads = Ok s1 /\
    Toy.trained_params = params s1 /\
    Metrics_update (metrics s1) (update_kwargs loss logits Toy.small_batch)
      = Ok Toy.hit_update /\
    Toy.trained = replace_metrics s1 Toy.hit_update.
Proof.
  apply (train_step_metrics_precede_update Toy.small_state Toy.small_batch Toy.trained).
  reflexivity.
Defined.

Lemma eval_step_frame_witness :
  Toy.evaluated = replace_metrics Toy.small_state Toy.hit_update /\
  params Toy.evaluated = Toy.small_params /\
  opt_state Toy.evaluated = 7 /\
  step Toy.evaluated = 7 /\
  apply_fn Toy.evaluated = Linear_apply /\
  tx Toy.evaluated = 1.
Proof.
  apply (eval_step_frame Toy.small_state Toy.small_batch Toy.evaluated_logs Toy.evaluated).
  reflexivity.
Defined.
End Runs.

(** * Further properties of the script *)

(** ** The model *)

Section ModelExtras.
Context {NUM : Numeric}.

Lemma chunks_length (fuel n : nat) (l : list F) : length (chunks fuel n l) = fuel.
Proof.
  revert l. induction fuel as [ | fuel IH]; intros l; [reflexivity | ].
  cbn [chunks length]. rewrite IH. reflexivity.
Qed.

Lemma chunks_app (b1 b2 n : nat) (d1 d2 : list F) :
  length d1 = (b1 * n)%nat ->
  chunks (b1 + b2) n (d1 ++ d2) = chunks b1 n d1 ++ chunks b2 n d2.
Proof.
  revert d1. induction b1 as [ | b1 IH]; intros d1 Hlen.
  - destruct d1; [reflexivity | discriminate Hlen].
  - cbn [Nat.add chunks app].
    assert (Hn : (n <= length d1)%nat) by (rewrite Hlen; cbn [Nat.mul]; lia).
    rewrite take_app_le, drop_app_le by exact Hn.
    rewrite IH; [reflexivity | ].
    rewrite length_drop, Hlen. cbn [Nat.mul]. lia.
Qed.

Lemma dense_row_length (features : nat) (kernel bias r : list F) :
  length (dense_row features kernel bias r) = features.
Proof. unfold dense_row. rewrite length_map, length_seq. reflexivity. Qed.

Lemma dense_rows_length (features : nat) (kernel bias : list F) (rows : list (list F)) :
  length (concat (map (dense_row features kernel bias) rows))
  = (length rows * features)%nat.
Proof.
  induction rows as [ | r rows IH]; [reflexivity | ].
  cbn [map concat length Nat.mul]. rewrite length_app, dense_row_length, IH.
  reflexivity.
Qed.

(** Whatever the layout of an example, the model returns ten numbers for
    each example of the batch: the output is a well-formed array of shape
    (b, 10). *)
Theorem Linear_output_wf (params : Params) (x y : Array) (b : nat) (rest : list nat)
  (Hwf : wf_array x) (Hshape : shape x = b :: rest) (Hb : (0 < b)%nat)
  (Hcall : Linear_call params x = Ok y) :
  shape y = [b; 10%nat] /\ length (data y) = (b * 10)%nat /\ wf_array y.
Proof.
  rewrite (Linear_call_rows params x b rest Hwf Hshape Hb) in Hcall.
  apply bind_Ok in Hcall. destruct Hcall as (scope & _ & Hdense).
  apply Dense_rows in Hdense.
  destruct Hdense as (kernel & bias & _ & _ & _ & _ & ->).
  assert (Hlen : length (concat (map (dense_row 10 (data kernel) (data bias))
                   (chunks b (numel rest) (map (fun v => fdiv v f255) (data x)))))
                 = (b * 10)%nat).
  { rewrite dense_rows_length, chunks_length. reflexivity. }
  split; [reflexivity | ]. split; [exact Hlen | ].
  unfold wf_array. cbn [data shape]. rewrite Hlen.
  unfold numel. cbn [fold_right]. lia.
Qed.

(** The examples of a batch do not influence each other: the output for
    two batches put together is the two outputs put together. *)
Theorem Linear_batch_independent (params : Params) (rest : list nat) (b1 b2 : nat)
  (d1 d2 : list F) (y1 y2 : Array)
  (Hwf1 : wf_array (mkArray (b1 :: rest) d1))
  (Hwf2 : wf_array (mkArray (b2 :: rest) d2))
  (Hb1 : (0 < b1)%nat) (Hb2 : (0 < b2)%nat)
  (Hy1 : Linear_call params (mkArray (b1 :: rest) d1) = Ok y1)
  (Hy2 : Linear_call params (mkArray (b2 :: rest) d2) = Ok y2) :
  Linear_call params (mkArray ((b1 + b2)%nat :: rest) (d1 ++ d2))
  = Ok (mkArray [(b1 + b2)%nat; 10%nat] (data y1 ++ data y2)).
Proof.
  assert (Hl1 : length d1 = (b1 * numel rest)%nat) by exact Hwf1.
  assert (Hl2 : length d2 = (b2 * numel rest)%nat) by exact Hwf2.
  assert (Hwf : wf_array (mkArray ((b1 + b2)%nat :: rest) (d1 ++ d2))).
  { unfold wf_array. cbn [data shape]. rewrite length_app, Hl1, Hl2.
    change (numel ((b1 + b2)%nat :: rest)) with ((b1 + b2) * numel rest)%nat. lia. }
  rewrite (Linear_call_rows params _ b1 rest Hwf1 eq_refl Hb1) in Hy1.
  rewrite (Linear_call_rows params _ b2 rest Hwf2 eq_refl Hb2) in Hy2.
  rewrite (Linear_call_rows params _ (b1 + b2) rest Hwf eq_refl) by lia.
  cbn [data] in *.
  apply bind_Ok in Hy1. destruct Hy1 as (scope & Hscope & Hd1).
  rewrite Hscope in Hy2 |- *. cbn [mbind result_bind] in Hy2 |- *.
  apply Dense_rows in Hd1. destruct Hd1 as (kernel & bias & Hk & Hbi & Hsk & Hsb & ->).
  apply Dense_rows in Hy2. destruct Hy2 as (kernel' & bias' & Hk' & Hbi' & _ & _ & ->).
  rewrite Hk in Hk'. injection Hk' as <-. rewrite Hbi in Hbi'. injection Hbi' as <-.
  apply Dense_rows. exists kernel, bias.
  repeat match goal with |- _ /\ _ => split end; try assumption.
  cbn [data]. rewrite map_app, chunks_app by (rewrite length_map; exact Hl1).
  rewrite map_app, concat_app. reflexivity.
Qed.

(** Flattening forgets how the pixels of an example are arranged: two
    batches with the same number of examples and the same elements in
    row-major order get the same output. *)
Theorem Linear_flatten_invariant (params : Params) (x x' : Array) (b : nat)
  (rest rest' : list nat)
  (Hwf : wf_array x) (Hwf' : wf_array x')
  (Hshape : shape x = b :: rest) (Hshape' : shape x' = b :: rest')
  (Hb : (0 < b)%nat) (Hdata : data x = data x') :
  Linear_call params x = Linear_call params x'.
Proof.
  rewrite (Linear_call_rows params x b rest Hwf Hshape Hb).
  rewrite (Linear_call_rows params x' b rest' Hwf' Hshape' Hb).
  assert (Hn : numel rest = numel rest').
  { unfold wf_array in Hwf, Hwf'. rewrite Hshape in Hwf. rewrite Hshape' in Hwf'.
    rewrite Hdata in Hwf. rewrite Hwf in Hwf'.
    change (numel (b :: rest)) with (b * numel rest)%nat in Hwf'.
    change (numel (b :: rest')) with (b * numel rest')%nat in Hwf'.
    apply Nat.mul_cancel_l in Hwf'; [exact Hwf' | lia]. }
  rewrite Hn, Hdata. reflexivity.
Qed.
End ModelExtras.

(** ** The step functions *)

(** Run the calls of a step one after the other on both sides. *)
Ltac step_through :=
  repeat match goal with
    | |- context [?m ≫= _] =>
        lazymatch m with
        | _ ≫= _ => fail
        | _ => destruct m; cbn [mbind result_bind]; [ | reflexivity]
        end
    end.

Section StepExtras.
Context {NUM : Numeric} {BE : Backend} {FL : Flax}.

(** After [reset_metrics] the logs no longer depend on what came before:
    any two states, once reset, hold the same metrics and compute the same
    logs. *)
Theorem compute_after_reset {B C B' C' : Type} (s1 s2 s1' s2' : TrainState)
  (b : B) (c : C) (b' : B') (c' : C')
  (Hr1 : reset_metrics s1 b c = Ok s1')
  (Hr2 : reset_metrics s2 b' c' = Ok s2') :
  metrics s1' = metrics s2' /\ compute_metrics s1' = compute_metrics s2'.
Proof.
  unfold reset_metrics in Hr1, Hr2. inv_ok.
  match goal with H1 : Metrics_empty = Ok ?m1, H2 : Metrics_empty = Ok ?m2 |- _ =>
    rewrite H1 in H2; injection H2 as <- end.
  split; reflexivity.
Qed.

(** Resetting twice is resetting once. *)
Theorem reset_metrics_idempotent {B C B' C' : Type} (s s' : TrainState)
  (b : B) (c : C) (b' : B') (c' : C')
  (Hreset : reset_metrics s b c = Ok s') :
  reset_metrics s' b' c' = Ok s'.
Proof.
  unfold reset_metrics in *. inv_ok.
  match goal with H : Metrics_empty = Ok _ |- _ => rewrite H end.
  reflexivity.
Qed.

(** The logs [eval_step] returns are those of the metrics it returns: the
    collection after the update, computed and added as stateful metrics to
    fresh logs. *)
Theorem eval_step_logs_match_state (s s' : TrainState) (batch : Batch) (logs : Logs)
  (Heval : eval_step s batch = Ok (logs, s')) :
  exists computed,
    Metrics_compute (metrics s') = Ok computed /\
    add_metrics ciclo_logs computed true = Ok logs.
Proof.
  unfold eval_step in Heval. inv_ok. eauto.
Qed.

(** [eval_step] reads the apply function, the parameters and the metrics
    of the state and nothing else: on a state that agrees on these three
    it gives the same logs or the same exception, and the same metrics. *)
Theorem eval_step_reads_model_and_metrics_only (s1 s2 : TrainState) (batch : Batch)
  (Hfn : apply_fn s1 = apply_fn s2) (Hparams : params s1 = params s2)
  (Hmetrics : metrics s1 = metrics s2) :
  eval_step s2 batch =
  eval_step s1 batch ≫= (fun '(logs, s1') => Ok (logs, replace_metrics s2 (metrics s1'))).
Proof.
  unfold eval_step. rewrite <- Hfn, <- Hparams, <- Hmetrics.
  step_through. reflexivity.
Qed.

(** Any number of [eval_step] calls in a row changes the metrics only and
    returns one log per batch; so a [reset_metrics] after them gives what
    it would have given before them. *)
Theorem eval_each_frame {B C : Type} (s s' : TrainState) (batches : list Batch)
  (logs : list Logs) (b : B) (c : C)
  (Heval : eval_each s batches = Ok (logs, s')) :
  s' = replace_metrics s (metrics s') /\
  length logs = length batches /\
  reset_metrics s' b c = reset_metrics s b c.
Proof.
  assert (Hframe : s' = replace_metrics s (metrics s') /\ length logs = length batches).
  { revert s logs Heval.
    induction batches as [ | batch rest IH]; intros s logs Heval.
    - cbn [eval_each] in Heval. injection Heval as <- <-.
      split; [destruct s | ]; reflexivity.
    - cbn [eval_each] in Heval.
      apply bind_Ok in Heval. destruct Heval as ([l1 s1] & H1 & Heval).
      apply bind_Ok in Heval. destruct Heval as ([more s2] & H2 & Heval).
      injection Heval as <- <-.
      destruct (IH s1 more H2) as [Hs Hlen].
      unfold eval_step in H1. inv_ok.
      split; [ | cbn [length]; rewrite Hlen; reflexivity].
      rewrite Hs at 1. reflexivity. }
  destruct Hframe as [Hs Hlen]. split; [exact Hs | ]. split; [exact Hlen | ].
  rewrite Hs. reflexivity.
Qed.

(** The loss, the logits and the gradient of [train_step] depend on the
    apply function and the parameters only: the metrics, the step counter
    and the optimizer state have no part in them. *)
Theorem loss_ignores_metrics (s1 s2 : TrainState) (batch : Batch)
  (Hfn : apply_fn s1 = apply_fn s2) (Hparams : params s1 = params s2) :
  value_and_grad (loss_fn s1 batch) (params s1)
  = value_and_grad (loss_fn s2 batch) (params s2).
Proof.
  unfold loss_fn. rewrite Hfn, Hparams. reflexivity.
Qed.

(** [train_step] and [eval_step] measure alike: when [apply_gradients]
    hands the metrics on untouched, both return, for the same state and
    batch, the same metrics. *)
Theorem train_eval_same_metrics (s s' s'' : TrainState) (batch : Batch) (logs : Logs)
  (Hkeep : forall t grads t', apply_gradients t grads = Ok t' -> metrics t' = metrics t)
  (Htrain : train_step s batch = Ok s')
  (Heval : eval_step s batch = Ok (logs, s'')) :
  metrics s' = metrics s''.
Proof.
  unfold train_step, value_and_grad, loss_fn in Htrain. unfold eval_step in Heval.
  inv_ok.
  match goal with H : apply_gradients _ _ = Ok _ |- _ =>
    apply Hkeep in H; rewrite H in * end.
  repeat match goal with
    | H1 : ?x = Ok ?a, H2 : ?x = Ok ?b |- _ =>
        rewrite H1 in H2; injection H2 as ?; subst
    end.
  reflexivity.
Qed.

End StepExtras.

(** ** The loop call *)

(** Runs started at different seconds write their checkpoints to different
    directories. *)
Theorem checkpoint_path_inj (now now' : Z) (Hne : now <> now') :
  checkpoint_path now <> checkpoint_path now'.
Proof.
  intros Hpath. apply Hne. unfold checkpoint_path in Hpath.
  apply (inj (String.app "logdir/mnist_full/")) in Hpath.
  apply (inj pretty) in Hpath. exact Hpath.
Qed.

(** * The further properties on the small instance *)

Section ExtraRuns.
#[local] Existing Instances Toy.numeric Toy.backend Toy.flax.

Lemma Linear_output_wf_witness :
  Linear_call Toy.small_params Toy.both_images = Ok Toy.both_logits /\
  shape Toy.both_logits = [2; 10]%nat /\
  length (data Toy.both_logits) = (2 * 10)%nat /\
  wf_array Toy.both_logits.
Proof.
  split; [reflexivity | ].
  apply (Linear_output_wf Toy.small_params Toy.both_images Toy.both_logits 2
                          [1; 2; 1]%nat).
  - reflexivity.
  - reflexivity.
  - lia.
  - reflexivity.
Defined.

Lemma Linear_batch_independent_witness :
  Linear_call Toy.small_params (image Toy.small_batch) = Ok Toy.small_logits /\
  Linear_call Toy.small_params (image Toy.other_batch) = Ok Toy.other_logits /\
  Linear_call Toy.small_params Toy.both_images = Ok Toy.both_logits.
Proof.
  split; [reflexivity | ]. split; [reflexivity | ].
  apply (Linear_batch_independent Toy.small_params [1; 2; 1]%nat 1 1
           [255000; 51000] [0; 255000] Toy.small_logits Toy.other_logits).
  - reflexivity.
  - reflexivity.
  - lia.
  - lia.
  - reflexivity.
  - reflexivity.
Defined.

Lemma Linear_flatten_invariant_witness :
  shape Toy.both_images <> shape Toy.both_images_flat /\
  Linear_call Toy.small_params Toy.both_images
  = Linear_call Toy.small_params Toy.both_images_flat.
Proof.
  split; [discriminate | ].
  apply (Linear_flatten_invariant Toy.small_params Toy.both_images
           Toy.both_images_flat 2 [1; 2; 1]%nat [2%nat]).
  - reflexivity.
  - reflexivity.
  - reflexivity.
  - reflexivity.
  - lia.
  - reflexivity.
Defined.

Lemma compute_after_reset_witness :
  metrics Toy.small_state <> metrics Toy.trained /\
  exists s1' s2',
    reset_metrics Toy.small_state Toy.small_batch 2 = Ok s1' /\
    reset_metrics Toy.trained Toy.other_batch 4 = Ok s2' /\
    metrics s1' = metrics s2' /\ compute_metrics s1' = compute_metrics s2'.
Proof.
  split; [discriminate | ].
  eexists _, _. split; [reflexivity | ]. split; [reflexivity | ].
  apply (compute_after_reset Toy.small_state Toy.trained _ _
           Toy.small_batch 2 Toy.other_batch 4); reflexivity.
Defined.

Lemma reset_metrics_idempotent_witness :
  exists s', reset_metrics Toy.trained Toy.small_batch 2 = Ok s' /\
             metrics s' <> metrics Toy.trained /\
             reset_metrics s' Toy.other_batch 4 = Ok s'.
Proof.
  eexists. split; [reflexivity | ]. split; [discriminate | ].
  apply (reset_metrics_idempotent Toy.trained _ Toy.small_batch 2 Toy.other_batch 4).
  reflexivity.
Defined.

Lemma eval_step_logs_match_state_witness :
  exists computed,
    Metrics_compute (metrics Toy.evaluated) = Ok computed /\
    add_metrics ciclo_logs computed true = Ok Toy.evaluated_logs.
Proof.
  apply (eval_step_logs_match_state Toy.small_state Toy.evaluated Toy.small_batch
           Toy.evaluated_logs).
  reflexivity.
Defined.

Lemma eval_step_reads_model_and_metrics_only_witness :
  step Toy.later_state <> step Toy.small_state /\
  eval_step Toy.small_state Toy.small_batch = Ok (Toy.evaluated_logs, Toy.evaluated) /\
  eval_step Toy.later_state Toy.small_batch = Ok (Toy.evaluated_logs, Toy.later_evaluated).
Proof.
  split; [discriminate | ]. split; [reflexivity | ].
  rewrite (eval_step_reads_model_and_metrics_only Toy.small_state Toy.later_state
             Toy.small_batch eq_refl eq_refl eq_refl).
  reflexivity.
Defined.

Lemma eval_each_frame_witness :
  eval_each Toy.small_state [Toy.small_batch; Toy.other_batch]
  = Ok ([Toy.evaluated_logs; Toy.evaluated_twice_logs], Toy.evaluated_twice) /\
  Toy.evaluated_twice = replace_metrics Toy.small_state (metrics Toy.evaluated_twice) /\
  length [Toy.evaluated_logs; Toy.evaluated_twice_logs]
  = length [Toy.small_batch; Toy.other_batch] /\
  reset_metrics Toy.evaluated_twice Toy.small_batch 2
  = reset_metrics Toy.small_state Toy.small_batch 2.
Proof.
  split; [reflexivity | ].
  apply (eval_each_frame Toy.small_state Toy.evaluated_twice
           [Toy.small_batch; Toy.other_batch]
           [Toy.evaluated_logs; Toy.evaluated_twice_logs] Toy.small_batch 2).
  reflexivity.
Defined.

Lemma loss_ignores_metrics_witness :
  metrics Toy.evaluated <> metrics Toy.later_state /\
  value_and_grad (loss_fn Toy.evaluated Toy.small_batch) (params Toy.evaluated)
  = value_and_grad (loss_fn Toy.later_state Toy.small_batch) (params Toy.later_state).
Proof.
  split; [discriminate | ].
  apply (loss_ignores_metrics Toy.evaluated Toy.later_state Toy.small_batch);
    reflexivity.
Defined.

Lemma train_eval_same_metrics_witness :
  train_step Toy.small_state Toy.small_batch = Ok Toy.trained /\
  eval_step Toy.small_state Toy.small_batch = Ok (Toy.evaluated_logs, Toy.evaluated) /\
  metrics Toy.trained = metrics Toy.evaluated.
Proof.
  split; [reflexivity | ]. split; [reflexivity | ].
  apply (train_eval_same_metrics Toy.small_state Toy.trained Toy.evaluated
           Toy.small_batch Toy.evaluated_logs).
  - intros t grads t' Happly. injection Happly as <-. reflexivity.
  - reflexivity.
  - reflexivity.
Defined.

Lemma checkpoint_path_inj_witness :
  checkpoint_path 1700000000 = "logdir/mnist_full/1700000000" /\
  checkpoint_path 1700000000 <> checkpoint_path 1700000001.
Proof.
  split; [reflexivity | ].
  apply (checkpoint_path_inj 1700000000 1700000001). discriminate.
Defined.
End ExtraRuns.
